(** * Logout / session-invalidation coordinator of the SSO demo portal

    A shallow embedding of [src/app.py]: the Redis-backed logout markers
    ([is_user_logged_out], [mark_user_logged_out], [clear_logout_state]),
    the authentication middleware [require_auth] and the Flask views that
    read or write the session and the marker store ([admin_login],
    [admin_callback], [admin_dashboard], [logout], [admin_logout]).

    Conventions of the model.
    - The Flask [session] is a typed view of the session dictionary: the
      entry ['user'] (a dictionary that only [admin_callback] ever writes,
      always with the keys id, username, email, name and roles), the entry
      ['access_token'], and whatever other keys the session transport or the
      OIDC client library keep there.
    - [logout_redis] is a finite map from keys to a value and the instant at
      which the key expires; a key whose instant has passed is invisible to
      [EXISTS], as in Redis. Time is counted in seconds, and one request is
      served at one instant [now] of the store's clock.
    - A view is a computation over the world (session, marker store) that
      also records, in order, every mutation it performs. *)

From stdpp Require Import base option strings gmap fin_maps list pretty.
From Stdlib Require Import ZArith Lia.

Local Open Scope Z_scope.
Local Open Scope string_scope.

(** ** Python values that reach the marker store *)

(** What [dict.get] returns for an identity claim: [None], or a string. *)
Inductive pyval : Type :=
  | PyNone
  | PyStr (s : string).

#[global] Instance pyval_eq_dec : EqDecision pyval.
Proof. solve_decision. Defined.

(** Truth value of a Python object in [if x:] and [x and y]. *)
Definition truthy (v : pyval) : bool :=
  match v with
  | PyNone => false
  | PyStr s => negb (String.eqb s "")
  end.

(** [f"{v}"]: how an f-string prints the value. *)
Definition py_format (v : pyval) : string :=
  match v with
  | PyNone => "None"
  | PyStr s => s
  end.

(** [f"logout:{user_id}"] *)
Definition logout_key (user_id : pyval) : string :=
  "logout:" ++ py_format user_id.

(** The literal key ["logout:*"] of the global logout flag. *)
Definition wildcard_key : string := "logout:*".

(** ** Session *)

(** The dictionary stored under [session['user']]. *)
Record user : Type := User {
  u_id : pyval;
  u_username : pyval;
  u_email : pyval;
  u_name : pyval;
  u_roles : list string
}.

#[global] Instance user_eq_dec : EqDecision user.
Proof. solve_decision. Defined.

Record session_t : Type := Session {
  s_user : option user;            (* session['user'], when present *)
  s_access_token : option pyval;   (* session['access_token'], when present *)
  s_rest : gmap string string      (* every other key of the session *)
}.

(** [session.clear()] leaves the empty dictionary. *)
Definition empty_session : session_t :=
  {| s_user := None; s_access_token := None; s_rest := ∅ |}.

(** ['user' in session] *)
Definition user_in_session (s : session_t) : bool :=
  match s_user s with Some _ => true | None => false end.

(** [session.get('user', {}).get('id')] *)
Definition session_user_id (s : session_t) : pyval :=
  match s_user s with
  | Some u => u_id u
  | None => PyNone
  end.

(** ** Marker store *)

(** A Redis string value with the instant (in seconds) at which it expires. *)
Record marker : Type := Marker {
  m_value : string;
  m_expires_at : Z
}.

#[global] Instance marker_eq_dec : EqDecision marker.
Proof. solve_decision. Defined.

(** Mutations, in the order a view performs them. *)
Inductive effect : Type :=
  | RedisSetex (key : string) (ttl : Z) (value : string)
  | RedisDelete (key : string)
  | SessionSet (key : string)
  | SessionClear.

#[global] Instance effect_eq_dec : EqDecision effect.
Proof. solve_decision. Defined.

Record world : Type := World {
  session : session_t;
  logout_redis : gmap string marker;
  trace : list effect
}.

(** ** The monad of views: state passing over the world *)

Definition M (A : Type) : Type := world → A * world.

Definition ret {A : Type} (a : A) : M A := λ w, (a, w).

Definition bind {A B : Type} (m : M A) (k : A → M B) : M B :=
  λ w, let '(a, w') := m w in k a w'.

Notation "'let*' x ':=' m 'in' k" := (bind m (λ x, k))
  (at level 10, x binder, m at level 100, k at level 200).
Notation "m '>>' k" := (bind m (λ _, k))
  (at level 100, k at level 200, right associativity).

Definition get_session : M session_t := λ w, (session w, w).

Definition emit (e : effect) : M unit :=
  λ w, (tt, {| session := session w; logout_redis := logout_redis w;
               trace := trace w ++ [e] |}).

Definition put_session (s : session_t) : M unit :=
  λ w, (tt, {| session := s; logout_redis := logout_redis w; trace := trace w |}).

Definition put_redis (r : gmap string marker) : M unit :=
  λ w, (tt, {| session := session w; logout_redis := r; trace := trace w |}).

(** [session.clear()] *)
Definition session_clear : M unit :=
  put_session empty_session >> emit SessionClear.

(** Whether the store still shows [key] at the instant [now]: the key is
    there and its expiry lies ahead. *)
Definition alive (r : gmap string marker) (now : Z) (key : string) : bool :=
  match r !! key with
  | Some m => bool_decide (now < m_expires_at m)
  | None => false
  end.

(** [logout_redis.exists(key)], as a truth value. *)
Definition redis_exists (now : Z) (key : string) : M bool :=
  λ w, (alive (logout_redis w) now key, w).

(** [logout_redis.setex(key, ttl, value)] *)
Definition redis_setex (now : Z) (key : string) (ttl : Z) (value : string) : M unit :=
  λ w, (emit (RedisSetex key ttl value) >>
        put_redis (<[key := Marker value (now + ttl)]> (logout_redis w))) w.

(** [logout_redis.delete(key)] *)
Definition redis_delete (key : string) : M unit :=
  λ w, (emit (RedisDelete key) >>
        put_redis (delete key (logout_redis w))) w.

(** ** Global logout state management *)

(** [a or b] on the two [EXISTS] calls: the second lookup is only made when
    the first one finds nothing. *)
Definition is_user_logged_out (now : Z) (user_id : pyval) : M bool :=
  let* own := redis_exists now (logout_key user_id) in
  if own then ret true else redis_exists now wildcard_key.

(** The default value of the parameter [ttl] of [mark_user_logged_out]. *)
Definition default_ttl : Z := 3600.

(** [mark_user_logged_out(user_id, ttl=3600)]: [ttl] is [None] when the call
    leaves the argument out, as every call of the program does. *)
Definition mark_user_logged_out (now : Z) (user_id : pyval) (ttl : option Z) : M unit :=
  redis_setex now (logout_key user_id) (default default_ttl ttl) "1".

Definition clear_logout_state (user_id : pyval) : M unit :=
  redis_delete (logout_key user_id).

(** ** Configuration, requests and responses *)

(** The choices of [--portal]. *)
Inductive portal : Type := internal | external | admin.

#[global] Instance portal_eq_dec : EqDecision portal.
Proof. solve_decision. Defined.

(** The globals that [main] sets before the server starts. [PORTAL_TYPE] is
    [None] until then; [keycloak_client] is registered for the admin portal
    only. [url_root] is the external prefix that [url_for(_, _external=True)]
    puts before a path. *)
Record config : Type := Config {
  PORTAL_TYPE : option portal;
  keycloak_client : bool;
  url_root : string
}.

(** [PORTAL_TYPE == 'admin'] *)
Definition portal_is_admin (c : config) : bool :=
  match PORTAL_TYPE c with
  | Some admin => true
  | _ => false
  end.

(** [PORTAL_TYPE != 'admin'] *)
Definition not_admin_portal (c : config) : bool := negb (portal_is_admin c).

(** The endpoints that [url_for] is asked for. *)
Inductive endpoint : Type := admin_login_ep | admin_dashboard_ep | admin_callback_ep.

Definition url_for (e : endpoint) : string :=
  match e with
  | admin_login_ep => "/admin/login"
  | admin_dashboard_ep => "/admin/dashboard"
  | admin_callback_ep => "/admin/callback"
  end.

Inductive response : Type :=
  | Redirect (location : string)
  | Body (text : string) (status : Z)
  | RenderLogin
  | RenderError (error : string)
  | RenderDashboard (u : user) (is_admin : bool)
  | Raised (exn : string).

#[global] Instance response_eq_dec : EqDecision response.
Proof. solve_decision. Defined.

Definition not_available : response := Body "Not available on this portal" 404.

Definition KEYCLOAK_SERVER_URL : string := "http://localhost:8080".
Definition KEYCLOAK_REALM : string := "enterprise-sso".

(** ** Authentication middleware *)

(** [require_auth(f)]: the function that replaces the view [f]. *)
Definition require_auth (now : Z) (f : M response) : M response :=
  let* s := get_session in
  if negb (user_in_session s) then
    ret (Redirect (url_for admin_login_ep))
  else
    let user_id := session_user_id s in
    let* out := is_user_logged_out now user_id in
    if out then
      let original_user_id := session_user_id s in
      session_clear >>
      let* everyone := redis_exists now wildcard_key in
      (if everyone && truthy original_user_id
       then mark_user_logged_out now original_user_id None
       else ret tt) >>
      ret (Redirect (url_for admin_login_ep))
    else f.

(** ** What the OIDC client library hands to the callback *)

(** [token['userinfo']]: the string-valued claims (a JSON null is [PyNone])
    and the object [realm_access] with its optional list [roles]. *)
Record userinfo_t : Type := UserInfo {
  ui_claims : gmap string pyval;
  ui_realm_access : option (option (list string))
}.

(** The dictionary returned by [authorize_access_token()]. *)
Record token_t : Type := Token {
  t_userinfo : option userinfo_t;
  t_access_token : pyval
}.

(** Outcome of [keycloak_client.authorize_access_token()]: the library
    raises an [AuthlibBaseError], or returns a token. *)
Inductive exchange : Type :=
  | AuthlibBaseError (msg : string)
  | Exchanged (token : token_t).

(** [user_info.get(k)] *)
Definition claim (ui : userinfo_t) (k : string) : pyval :=
  default PyNone (ui_claims ui !! k).

(** [if user_info:] on [token.get('userinfo')]: a missing entry and an empty
    dictionary are both false. *)
Definition usable (ui : option userinfo_t) : bool :=
  match ui with
  | None => false
  | Some i =>
      negb (bool_decide (ui_claims i = ∅)) ||
      match ui_realm_access i with Some _ => true | None => false end
  end.

(** The dictionary literal assigned to [session['user']]. *)
Definition user_of_claims (ui : userinfo_t) : user :=
  {| u_id := claim ui "sub";
     u_username := claim ui "preferred_username";
     u_email := claim ui "email";
     u_name := default (claim ui "preferred_username") (ui_claims ui !! "name");
     u_roles := match ui_realm_access ui with
                | Some (Some roles) => roles
                | _ => []
                end |}.

(** [session['user'] = u] *)
Definition session_set_user (u : user) : M unit :=
  let* s := get_session in
  put_session {| s_user := Some u; s_access_token := s_access_token s;
                 s_rest := s_rest s |} >>
  emit (SessionSet "user").

(** [session['access_token'] = v] *)
Definition session_set_access_token (v : pyval) : M unit :=
  let* s := get_session in
  put_session {| s_user := s_user s; s_access_token := Some v;
                 s_rest := s_rest s |} >>
  emit (SessionSet "access_token").

(** ** Routes *)

Definition admin_login (cfg : config) (now : Z) : M response :=
  if not_admin_portal cfg then ret not_available
  else
    let* s := get_session in
    if user_in_session s then
      let user_id := session_user_id s in
      let* out := is_user_logged_out now user_id in
      if out then session_clear >> ret RenderLogin
      else ret (Redirect (url_for admin_dashboard_ep))
    else ret RenderLogin.

Definition admin_callback (cfg : config) (oidc : exchange) : M response :=
  if not_admin_portal cfg then ret not_available
  else if negb (keycloak_client cfg) then
    ret (RenderError "OIDC client not configured.")
  else
    match oidc with
    | Exchanged token =>
        match t_userinfo token with
        | Some user_info =>
            if usable (Some user_info) then
              session_set_user (user_of_claims user_info) >>
              session_set_access_token (t_access_token token) >>
              let* s := get_session in
              let user_id := session_user_id s in
              clear_logout_state user_id >>
              redis_delete wildcard_key >>
              ret (Redirect (url_for admin_dashboard_ep))
            else
              ret (RenderError "Authentication failed - no user information received")
        | None =>
            ret (RenderError "Authentication failed - no user information received")
        end
    | AuthlibBaseError e =>
        ret (RenderError ("Authentication failed: " ++ e))
    end.

(** The body of [admin_dashboard], before [@require_auth] wraps it. *)
Definition admin_dashboard_view (cfg : config) : M response :=
  if not_admin_portal cfg then ret not_available
  else
    let* s := get_session in
    match s_user s with
    | None => ret (Raised "AttributeError")
    | Some user =>
        let user_roles := u_roles user in
        let is_admin := bool_decide ("admin" ∈ user_roles)
                        || bool_decide ("approver" ∈ user_roles) in
        ret (RenderDashboard user is_admin)
    end.

Definition admin_dashboard (cfg : config) (now : Z) : M response :=
  require_auth now (admin_dashboard_view cfg).

Inductive http_method : Type := GET | POST.

(** [logout], for [/logout] and [/logout.html]; [logout_token] is
    [request.form.get('logout_token')]. *)
Definition logout (cfg : config) (now : Z) (method : http_method)
    (logout_token : option string) : M response :=
  match method with
  | POST =>
      let* s := get_session in
      let current_user_id_in_session := session_user_id s in
      (if truthy current_user_id_in_session
       then mark_user_logged_out now current_user_id_in_session None
       else ret tt) >>
      mark_user_logged_out now (PyStr "*") None >>
      let* s' := get_session in
      (if user_in_session s' then session_clear else ret tt) >>
      ret (Body "Logout acknowledged" 200)
  | GET =>
      let* s := get_session in
      let current_user_id := session_user_id s in
      (if truthy current_user_id
       then mark_user_logged_out now current_user_id None
       else ret tt) >>
      session_clear >>
      if portal_is_admin cfg
      then ret (Redirect (url_for admin_login_ep))
      else ret (Body "Logged out. Please login again." 200)
  end.

Definition admin_logout (cfg : config) (now : Z) : M response :=
  if not_admin_portal cfg then ret not_available
  else
    let* s := get_session in
    let user_id := session_user_id s in
    (if truthy user_id
     then mark_user_logged_out now user_id None
     else ret tt) >>
    session_clear >>
    let post_logout_redirect_uri := url_root cfg ++ url_for admin_login_ep in
    let logout_url :=
      KEYCLOAK_SERVER_URL ++ "/realms/" ++ KEYCLOAK_REALM
      ++ "/protocol/openid-connect/logout?"
      ++ "post_logout_redirect_uri=" ++ post_logout_redirect_uri in
    ret (Redirect logout_url).

(** ** Observations on the marker store *)

(** A marker under [key] that [EXISTS] sees at the instant [now]. *)
Definition live (r : gmap string marker) (now : Z) (key : string) : Prop :=
  ∃ m, r !! key = Some m ∧ now < m_expires_at m.

(** The marker that [mark_user_logged_out] writes at the instant [now] when
    [ttl] is left to its default. *)
Definition fresh_marker (now : Z) : marker := Marker "1" (now + 3600).

(** The world a request starts from: nothing recorded yet. *)
Definition start (s : session_t) (r : gmap string marker) : world :=
  {| session := s; logout_redis := r; trace := [] |}.

(** In the trace [t], every effect satisfying [p] comes before every effect
    satisfying [q]. *)
Definition precedes (p q : effect → bool) (t : list effect) : Prop :=
  ∀ (i j : nat) (e e' : effect),
    t !! i = Some e → p e = true →
    t !! j = Some e' → q e' = true → (i < j)%nat.

Definition is_session_set (e : effect) : bool :=
  match e with SessionSet _ => true | _ => false end.

Definition is_redis_delete (e : effect) : bool :=
  match e with RedisDelete _ => true | _ => false end.

(** The callback got no identity to log in: the library raised, or the
    token carries no usable [userinfo]. *)
Definition login_failed (oidc : exchange) : bool :=
  match oidc with
  | AuthlibBaseError _ => true
  | Exchanged token => negb (usable (t_userinfo token))
  end.

(** The [error] shown on [error.html] in that case. *)
Definition failure_message (oidc : exchange) : string :=
  match oidc with
  | AuthlibBaseError e => "Authentication failed: " ++ e
  | Exchanged _ => "Authentication failed - no user information received"
  end.

(** A [SETEX] with the default lifetime and the value ["1"]; any other
    effect passes. *)
Definition default_setex (e : effect) : Prop :=
  match e with
  | RedisSetex _ ttl value => ttl = 3600 ∧ value = "1"
  | _ => True
  end.

(** Between [w] and [w'] markers were only written with the default
    lifetime, counted from [now]: a marker of [w'] is the one [w] had under
    the same key or the fresh marker, and every [SETEX] added to the trace
    carries 3600 seconds. *)
Definition default_marks_only (now : Z) (w w' : world) : Prop :=
  (∀ k m, logout_redis w' !! k = Some m →
          logout_redis w !! k = Some m ∨ m = fresh_marker now) ∧
  ∃ t, trace w' = (trace w ++ t)%list ∧ Forall default_setex t.

(** The computation [m] only ever marks with the default lifetime. *)
Definition keeps_default_ttl {A : Type} (now : Z) (m : M A) : Prop :=
  ∀ w, default_marks_only now w (snd (m w)).

(** ** Dispatch *)

(** The requests that reach a view reading or writing the session or the
    marker store. [/logout] and [/logout.html] share one view;
    [/admin/auth] only hands over to the OIDC client library. *)
Inductive request : Type :=
  | GetAdminLogin
  | GetAdminCallback (oidc : exchange)
  | GetAdminDashboard
  | Logout (method : http_method) (logout_token : option string)
  | GetAdminLogout.

Definition dispatch (cfg : config) (now : Z) (req : request) : M response :=
  match req with
  | GetAdminLogin => admin_login cfg now
  | GetAdminCallback oidc => admin_callback cfg oidc
  | GetAdminDashboard => admin_dashboard cfg now
  | Logout method logout_token => logout cfg now method logout_token
  | GetAdminLogout => admin_logout cfg now
  end.

(** ** Sample data *)

Definition alice : user :=
  {| u_id := PyStr "alice"; u_username := PyStr "alice";
     u_email := PyStr "alice@example.org"; u_name := PyStr "Alice";
     u_roles := ["admin"] |}.

(** The record [admin_callback] stores when the claims carry no [sub]. *)
Definition nameless : user :=
  {| u_id := PyNone; u_username := PyStr "mallory";
     u_email := PyNone; u_name := PyStr "mallory"; u_roles := [] |}.

Definition session_of (u : user) : session_t :=
  {| s_user := Some u; s_access_token := Some (PyStr "token"); s_rest := ∅ |}.

Definition admin_cfg : config :=
  {| PORTAL_TYPE := Some admin; keycloak_client := true;
     url_root := "https://portal.example.org" |}.

Definition internal_cfg : config :=
  {| PORTAL_TYPE := Some internal; keycloak_client := false;
     url_root := "https://portal.example.org" |}.

(** Claims of a user that carry no [sub]. *)
Definition no_sub_token : token_t :=
  {| t_userinfo := Some {| ui_claims := {[ "preferred_username" := PyStr "mallory" ]};
                           ui_realm_access := None |};
     t_access_token := PyStr "token" |}.

Definition alice_token : token_t :=
  {| t_userinfo := Some {| ui_claims := {[ "sub" := PyStr "alice";
                                           "preferred_username" := PyStr "alice" ]};
                           ui_realm_access := Some (Some ["admin"]) |};
     t_access_token := PyStr "token" |}.

(** A store with a wildcard marker and a marker for bob. *)
Definition sample_store : gmap string marker :=
  {[ wildcard_key := Marker "1" 50; "logout:bob" := Marker "1" 70 ]}.

(** ** Portal identity and start-up *)

(** [get_portal_info(portal_type)]: the dictionary for the admin portal, and
    the generic one for anything else. *)
Definition get_portal_info (portal_type : option portal) : gmap string string :=
  match portal_type with
  | Some admin =>
      {[ "name" := "Admin Dashboard";
         "icon" := "👑";
         "description" := "Centralized administration and SSO management interface." ]}
  | _ =>
      {[ "name" := "Default Portal";
         "icon" := "🌐";
         "description" := "A generic portal." ]}
  end.

Definition get_static_directory (portal_type : option portal) : string :=
  match portal_type with
  | Some admin => "admin-dashboard"
  | _ => "static"
  end.

(** The namespace returned by [parse_arguments()]. *)
Record args_t : Type := Args {
  args_portal : portal;
  args_port : Z
}.

(** The module globals and the two folders of [app] that [main] assigns.
    A folder is the list of path components below the root. *)
Record globals_t : Type := Globals {
  g_PORTAL_TYPE : option portal;
  g_PORTAL_INFO : gmap string string;
  g_keycloak_client : bool;
  g_template_folder : list string;
  g_static_folder : list string
}.

(** [main], up to the start of the server: the globals it leaves behind and
    the banner it logs. [PORTAL_INFO['icon']] and [PORTAL_INFO['name']] are
    subscripts, so a missing key would raise: the banner is [None] then.
    [current_app_path] is the directory of the module. *)
Definition main (args : args_t) (current_app_path : list string)
    : globals_t * option string :=
  let portal_type := Some (args_portal args) in
  let portal_info := get_portal_info portal_type in
  let globals :=
    match portal_type with
    | Some admin =>
        {| g_PORTAL_TYPE := portal_type;
           g_PORTAL_INFO := portal_info;
           g_keycloak_client := true;
           g_template_folder := current_app_path ++ ["admin-dashboard"; "templates"];
           g_static_folder := current_app_path ++ ["admin-dashboard"; "static"] |}
    | _ =>
        {| g_PORTAL_TYPE := portal_type;
           g_PORTAL_INFO := portal_info;
           g_keycloak_client := false;
           g_template_folder := current_app_path ++ ["templates"];
           g_static_folder := current_app_path ++ ["static"] |}
    end in
  (globals,
   icon ← portal_info !! "icon";
   name ← portal_info !! "name";
   Some ("🚀 Starting " ++ icon ++ " " ++ name ++ " on port " ++ pretty (args_port args))).

(** The configuration a request sees once [main] has run. *)
Definition config_of (g : globals_t) (root : string) : config :=
  {| PORTAL_TYPE := g_PORTAL_TYPE g;
     keycloak_client := g_keycloak_client g;
     url_root := root |}.

(** [admin_auth]; [authorize_redirect] is the method of the OIDC client,
    which builds the redirect to the identity provider and may keep its
    state in the session. *)
Definition admin_auth (cfg : config) (authorize_redirect : string → M response)
    : M response :=
  if not_admin_portal cfg then ret not_available
  else if negb (keycloak_client cfg) then
    ret (RenderError "OIDC client not configured.")
  else
    let redirect_uri := url_root cfg ++ url_for admin_callback_ep in
    authorize_redirect redirect_uri.

(** A second browser of the same user: the session [s] seen against the
    marker store of [w]. *)
Definition with_session (s : session_t) (w : world) : world :=
  {| session := s; logout_redis := logout_redis w; trace := trace w |}.

(** A user whose subject identifier is the asterisk. *)
Definition star : user :=
  {| u_id := PyStr "*"; u_username := PyStr "star";
     u_email := PyNone; u_name := PyNone; u_roles := [] |}.

(** Claims of bob, with nothing but a [sub]. *)
Definition bob_token : token_t :=
  {| t_userinfo := Some {| ui_claims := {[ "sub" := PyStr "bob" ]};
                           ui_realm_access := None |};
     t_access_token := PyNone |}.

(** The gate stops the request, whatever the view behind it: it redirects
    to the login page and leaves the session empty. *)
Definition gate_stops (now : Z) (w : world) : Prop :=
  ∀ f : M response,
    ∃ w', require_auth now f w = (Redirect "/admin/login", w') ∧
          session w' = empty_session.

(** The gate hands the request over to the view and changes nothing. *)
Definition gate_admits (now : Z) (w : world) : Prop :=
  ∀ f : M response, require_auth now f w = f w.

(** ** Proof support *)

(** Unfolds the monad and the primitives of the world, down to the maps. *)
Ltac run :=
  cbv beta iota zeta delta
    [bind ret get_session emit put_session put_redis session_clear
     redis_exists redis_setex redis_delete is_user_logged_out
     mark_user_logged_out clear_logout_state session_set_user
     session_set_access_token session logout_redis trace fst snd
     default default_ttl start].

Create HintDb keeps.

(** * Properties *)

(** ** Running a view *)

Lemma alive_live (r : gmap string marker) (now : Z) (key : string) :
  alive r now key = true ↔ live r now key.
Proof.
  unfold alive, live.
  destruct (r !! key) as [m|] eqn:E.
  - rewrite bool_decide_eq_true. split.
    + intros H. by exists m.
    + intros (m' & Hm & Hlt). by simplify_eq.
  - split; [done | intros (m' & Hm & _); done].
Qed.

Lemma alive_insert_eq (r : gmap string marker) (now : Z) (key : string) (m : marker) :
  alive (<[key := m]> r) now key = bool_decide (now < m_expires_at m).
Proof. unfold alive. by rewrite lookup_insert_eq. Qed.

Lemma alive_insert_ne (r : gmap string marker) (now : Z) (k k' : string) (m : marker) :
  k ≠ k' → alive (<[k := m]> r) now k' = alive r now k'.
Proof. intros H. unfold alive. by rewrite lookup_insert_ne. Qed.

Lemma alive_delete_eq (r : gmap string marker) (now : Z) (key : string) :
  alive (delete key r) now key = false.
Proof. unfold alive. by rewrite lookup_delete_eq. Qed.

Lemma alive_delete_ne (r : gmap string marker) (now : Z) (k k' : string) :
  k ≠ k' → alive (delete k r) now k' = alive r now k'.
Proof. intros H. unfold alive. by rewrite lookup_delete_ne. Qed.

Lemma logout_key_star : logout_key (PyStr "*") = wildcard_key.
Proof. reflexivity. Qed.

Lemma is_user_logged_out_run (now : Z) (user_id : pyval) (w : world) :
  is_user_logged_out now user_id w =
  (alive (logout_redis w) now (logout_key user_id)
   || alive (logout_redis w) now wildcard_key, w).
Proof.
  run. by destruct (alive _ now (logout_key user_id)).
Qed.

(** ** The marker store *)

Lemma logout_key_inj (a b : pyval) :
  logout_key a = logout_key b → py_format a = py_format b.
Proof.
  unfold logout_key. intros H.
  cbv beta iota delta [String.append] in H. by simplify_eq.
Qed.

Lemma logout_key_wildcard (a : pyval) :
  logout_key a = wildcard_key ↔ py_format a = "*".
Proof.
  unfold logout_key, wildcard_key. split.
  - intros H. cbv beta iota delta [String.append] in H. by simplify_eq.
  - intros ->. reflexivity.
Qed.

(** C2. [is_user_logged_out] is a read-only query, and for every subject it
    answers true exactly when a marker that has not expired is stored under
    the subject's own key or under the wildcard key. In particular a live
    wildcard marker makes the answer true for every subject, with or without
    a marker of its own, and with neither marker alive the answer is false. *)
Theorem is_user_logged_out_spec (now : Z) (user_id : pyval) (w : world) :
  snd (is_user_logged_out now user_id w) = w ∧
  (fst (is_user_logged_out now user_id w) = true ↔
     live (logout_redis w) now (logout_key user_id) ∨
     live (logout_redis w) now wildcard_key) ∧
  (live (logout_redis w) now wildcard_key →
     fst (is_user_logged_out now user_id w) = true) ∧
  (¬ live (logout_redis w) now (logout_key user_id) →
   ¬ live (logout_redis w) now wildcard_key →
     fst (is_user_logged_out now user_id w) = false).
Proof.
  rewrite is_user_logged_out_run. simpl.
  rewrite <- !alive_live.
  destruct (alive (logout_redis w) now (logout_key user_id)),
           (alive (logout_redis w) now wildcard_key); simpl; intuition congruence.
Qed.

(** Scenario: only the wildcard is marked, nobody else; every subject is
    logged out until the 3600 seconds are over, and nobody afterwards. *)
Example wildcard_alone_covers_everyone (user_id : pyval) (now : Z) :
  let w := snd (mark_user_logged_out 1000 (PyStr "*") None (start empty_session ∅)) in
  fst (is_user_logged_out now user_id w) = bool_decide (now < 4600).
Proof.
  intros w. rewrite is_user_logged_out_run. subst w. run.
  rewrite logout_key_star, alive_insert_eq. simpl.
  destruct (decide (wildcard_key = logout_key user_id)) as [<- | Hne].
  - rewrite alive_insert_eq. simpl. by destruct (bool_decide _).
  - rewrite alive_insert_ne by done. unfold alive. by rewrite lookup_empty.
Qed.

(** Scenario 1 of the specification: alice is marked, bob is not. *)
Example alice_marked_bob_not :
  let w := snd (mark_user_logged_out 0 (PyStr "alice") None (start empty_session ∅)) in
  fst (is_user_logged_out 10 (PyStr "alice") w) = true ∧
  fst (is_user_logged_out 10 (PyStr "bob") w) = false ∧
  fst (is_user_logged_out 3600 (PyStr "alice") w) = false.
Proof. by vm_compute. Qed.

(** C6. Clearing a concrete subject (any subject other than ["*"]) removes
    the marker under that subject's key and changes no other key of the
    store: the wildcard marker and every other subject's marker keep their
    value and expiry. Deleting the wildcard key, as the login callback does,
    removes the wildcard marker and leaves the marker of every concrete
    subject as it was. Neither touches the session. *)
Theorem clear_logout_state_frame (S : string) (w : world) :
  S ≠ "*" →
  let w1 := snd (clear_logout_state (PyStr S) w) in
  let w2 := snd (redis_delete wildcard_key w) in
  (logout_redis w1 !! logout_key (PyStr S) = None ∧
   logout_redis w1 !! wildcard_key = logout_redis w !! wildcard_key ∧
   (∀ k, k ≠ logout_key (PyStr S) → logout_redis w1 !! k = logout_redis w !! k) ∧
   (∀ T : string, T ≠ S →
      logout_redis w1 !! logout_key (PyStr T) = logout_redis w !! logout_key (PyStr T)) ∧
   session w1 = session w) ∧
  (logout_redis w2 !! wildcard_key = None ∧
   (∀ T : string, T ≠ "*" →
      logout_redis w2 !! logout_key (PyStr T) = logout_redis w !! logout_key (PyStr T)) ∧
   (∀ k, k ≠ wildcard_key → logout_redis w2 !! k = logout_redis w !! k) ∧
   session w2 = session w).
Proof.
  intros HS. simpl. repeat split.
  - apply lookup_delete_eq.
  - apply lookup_delete_ne. intros H. apply logout_key_wildcard in H. done.
  - intros k Hk. by apply lookup_delete_ne.
  - intros T HT. apply lookup_delete_ne. intros H.
    apply logout_key_inj in H. simpl in H. congruence.
  - apply lookup_delete_eq.
  - intros T HT. apply lookup_delete_ne. intros H. symmetry in H.
    apply logout_key_wildcard in H. done.
  - intros k Hk. by apply lookup_delete_ne.
Qed.

Lemma clear_logout_state_frame_witness :
  logout_redis (snd (clear_logout_state (PyStr "alice") (start empty_session sample_store)))
    !! wildcard_key
  = logout_redis (start empty_session sample_store) !! wildcard_key.
Proof.
  exact (proj1 (proj2 (proj1
    (clear_logout_state_frame "alice" (start empty_session sample_store)
       ltac:(discriminate))))).
Defined.

(** ** The authentication middleware *)

(** What the wrapped view computes, case by case. *)
Lemma require_auth_run (now : Z) (f : M response) (w : world) :
  require_auth now f w =
  match s_user (session w) with
  | None => (Redirect (url_for admin_login_ep), w)
  | Some u =>
      if alive (logout_redis w) now (logout_key (u_id u))
         || alive (logout_redis w) now wildcard_key
      then
        (Redirect (url_for admin_login_ep),
         if alive (logout_redis w) now wildcard_key && truthy (u_id u)
         then {| session := empty_session;
                 logout_redis :=
                   <[logout_key (u_id u) := fresh_marker now]> (logout_redis w);
                 trace := (trace w ++ [SessionClear])
                          ++ [RedisSetex (logout_key (u_id u)) 3600 "1"] |}
         else {| session := empty_session;
                 logout_redis := logout_redis w;
                 trace := trace w ++ [SessionClear] |})
      else f w
  end.
Proof.
  unfold require_auth, user_in_session, session_user_id.
  destruct w as [s r t]. run.
  destruct (s_user s) as [u|]; simpl; [| done].
  destruct (alive r now (logout_key (u_id u))) eqn:Hown,
           (alive r now wildcard_key) eqn:Hwild,
           (truthy (u_id u)) eqn:Hid;
    run; rewrite ?Hown, ?Hwild, ?Hid; reflexivity.
Qed.

(** C1 (as amended). Every request to a protected route gets exactly one of
    three decisions. Without a ['user'] entry in the session the gate
    redirects to the login page and changes nothing. With a user whose id is
    marked (by its own marker or by the wildcard) the gate redirects to the
    login page whatever the view is, clears the session, and, when the
    wildcard marker is alive and the user id is a non-empty value, writes a
    marker for that id; in every other marked case the store is left as it
    was. Otherwise the request goes through to the view unchanged. *)
Theorem require_auth_decision (now : Z) (f : M response) (w : world) :
  (s_user (session w) = None →
     require_auth now f w = (Redirect "/admin/login", w)) ∧
  (∀ u, s_user (session w) = Some u →
     fst (is_user_logged_out now (u_id u) w) = true →
     ∃ w', require_auth now f w = (Redirect "/admin/login", w') ∧
       session w' = empty_session ∧
       (live (logout_redis w) now wildcard_key → truthy (u_id u) = true →
          logout_redis w' =
            <[logout_key (u_id u) := fresh_marker now]> (logout_redis w)) ∧
       (¬ live (logout_redis w) now wildcard_key ∨ truthy (u_id u) = false →
          logout_redis w' = logout_redis w)) ∧
  (∀ u, s_user (session w) = Some u →
     fst (is_user_logged_out now (u_id u) w) = false →
     require_auth now f w = f w).
Proof.
  rewrite require_auth_run. repeat split.
  - by intros ->.
  - intros u -> Hout. rewrite is_user_logged_out_run in Hout. simpl in Hout.
    rewrite Hout. eexists. split; [reflexivity |].
    rewrite <- alive_live.
    destruct (alive (logout_redis w) now wildcard_key), (truthy (u_id u));
      simpl; intuition congruence.
  - intros u -> Hout. rewrite is_user_logged_out_run in Hout. simpl in Hout.
    by rewrite Hout.
Qed.

(** C1 (as stated) fails: a session whose user record has no id is hit by the
    wildcard marker, is cleared and redirected, and yet no marker is written
    for it -- the store is exactly what it was. *)
Lemma require_auth_no_remark_without_id :
  let w := start (session_of nameless) sample_store in
  user_in_session (session w) = true ∧
  fst (is_user_logged_out 0 (session_user_id (session w)) w) = true ∧
  alive (logout_redis w) 0 wildcard_key = true ∧
  fst (require_auth 0 (ret RenderLogin) w) = Redirect "/admin/login" ∧
  session (snd (require_auth 0 (ret RenderLogin) w)) = empty_session ∧
  logout_redis (snd (require_auth 0 (ret RenderLogin) w))
    !! logout_key (session_user_id (session w)) = None ∧
  logout_redis (snd (require_auth 0 (ret RenderLogin) w)) = logout_redis w.
Proof. by vm_compute. Qed.

(** The three decisions on concrete requests. *)
Example gate_redirects_anonymous :
  admin_dashboard admin_cfg 0 (start empty_session ∅)
  = (Redirect "/admin/login", start empty_session ∅).
Proof. reflexivity. Qed.

Example gate_remarks_alice_on_wildcard :
  fst (admin_dashboard admin_cfg 0 (start (session_of alice) sample_store))
    = Redirect "/admin/login" ∧
  logout_redis (snd (admin_dashboard admin_cfg 0 (start (session_of alice) sample_store)))
    !! "logout:alice" = Some (Marker "1" 3600).
Proof. by vm_compute. Qed.

Example gate_allows_alice :
  fst (admin_dashboard admin_cfg 0 (start (session_of alice) ∅))
  = RenderDashboard alice true.
Proof. by vm_compute. Qed.

(** C5, on the code: the callback accepts claims without [sub] and stores a
    user record whose id is [None]; with no marker in the store the gate then
    lets that session through and the dashboard is rendered for it. *)
Theorem gate_admits_session_without_id :
  let w := snd (admin_callback admin_cfg (Exchanged no_sub_token) (start empty_session ∅)) in
  s_user (session w) = Some nameless ∧
  session_user_id (session w) = PyNone ∧
  truthy (session_user_id (session w)) = false ∧
  fst (admin_dashboard admin_cfg 5 w) = RenderDashboard nameless false.
Proof. by vm_compute. Qed.

(** The part of C5 that the gate does enforce: no ['user'] entry, no view. *)
Lemma require_auth_stops_userless (now : Z) (f : M response) (w : world) :
  user_in_session (session w) = false →
  require_auth now f w = (Redirect "/admin/login", w).
Proof.
  unfold user_in_session. rewrite require_auth_run.
  by destruct (s_user (session w)).
Qed.

(** ** The dashboard on another portal *)

(** C9, on the code: on a portal that is not the admin portal, a request to
    the dashboard without a session is answered by the gate with a redirect
    to the login page, not by the 404 of the view. *)
Theorem dashboard_redirects_on_other_portal :
  not_admin_portal internal_cfg = true ∧
  admin_dashboard internal_cfg 0 (start empty_session ∅)
    = (Redirect "/admin/login", start empty_session ∅) ∧
  fst (admin_dashboard internal_cfg 0 (start (session_of alice) sample_store))
    = Redirect "/admin/login" ∧
  session (snd (admin_dashboard internal_cfg 0 (start (session_of alice) sample_store)))
    = empty_session.
Proof. by vm_compute. Qed.

(** What does hold: once the gate lets the request through, any portal other
    than the admin portal answers 404 and changes nothing. *)
Lemma dashboard_not_available_behind_gate (cfg : config) (now : Z) (w : world) (u : user) :
  not_admin_portal cfg = true →
  s_user (session w) = Some u →
  fst (is_user_logged_out now (u_id u) w) = false →
  admin_dashboard cfg now w = (Body "Not available on this portal" 404, w).
Proof.
  intros Hp Hu Hout. unfold admin_dashboard.
  rewrite require_auth_run, Hu.
  rewrite is_user_logged_out_run in Hout. simpl in Hout. rewrite Hout.
  unfold admin_dashboard_view. by rewrite Hp.
Qed.

(** ** The login callback *)

(** C7. When the exchange raises a protocol error, or returns a token
    without usable identity claims, the callback returns the world exactly as
    it found it -- session, marker store and trace of mutations -- and on the
    admin portal the response is the error page, with the message of the
    failure when the OIDC client is configured. *)
Theorem admin_callback_failure (cfg : config) (oidc : exchange) (w : world) :
  login_failed oidc = true →
  snd (admin_callback cfg oidc w) = w ∧
  (portal_is_admin cfg = true →
     ∃ error, fst (admin_callback cfg oidc w) = RenderError error) ∧
  (portal_is_admin cfg = true → keycloak_client cfg = true →
     fst (admin_callback cfg oidc w) = RenderError (failure_message oidc)).
Proof.
  intros Hfail. unfold admin_callback, not_admin_portal.
  assert (∀ error, ret (RenderError error) w = (RenderError error, w)) as Hret
    by done.
  destruct (portal_is_admin cfg), (keycloak_client cfg); cbn [negb];
    try (repeat split; intros; try done; eexists; reflexivity).
  destruct oidc as [e | token]; cbn [login_failed failure_message] in *.
  { repeat split; intros; try done; eexists; reflexivity. }
  destruct (t_userinfo token) as [ui|] eqn:Hui.
  - apply negb_true_iff in Hfail. rewrite Hfail.
    repeat split; intros; try done; eexists; reflexivity.
  - repeat split; intros; try done; eexists; reflexivity.
Qed.

Lemma admin_callback_failure_witness :
  snd (admin_callback admin_cfg (AuthlibBaseError "mismatching_state")
         (start (session_of alice) sample_store))
  = start (session_of alice) sample_store.
Proof.
  exact (proj1 (admin_callback_failure admin_cfg (AuthlibBaseError "mismatching_state")
                  (start (session_of alice) sample_store) eq_refl)).
Defined.

Example callback_without_userinfo :
  admin_callback admin_cfg (Exchanged {| t_userinfo := None; t_access_token := PyStr "t" |})
    (start (session_of alice) sample_store)
  = (RenderError "Authentication failed - no user information received",
     start (session_of alice) sample_store).
Proof. reflexivity. Qed.

(** What a successful callback computes. *)
Lemma admin_callback_run (cfg : config) (token : token_t) (ui : userinfo_t) (w : world) :
  portal_is_admin cfg = true → keycloak_client cfg = true →
  t_userinfo token = Some ui → usable (Some ui) = true →
  admin_callback cfg (Exchanged token) w =
  (Redirect "/admin/dashboard",
   {| session := {| s_user := Some (user_of_claims ui);
                    s_access_token := Some (t_access_token token);
                    s_rest := s_rest (session w) |};
      logout_redis :=
        delete wildcard_key (delete (logout_key (claim ui "sub")) (logout_redis w));
      trace := trace w ++ [SessionSet "user"; SessionSet "access_token";
                           RedisDelete (logout_key (claim ui "sub"));
                           RedisDelete wildcard_key] |}).
Proof.
  intros Hp Hc Hui Huse. unfold admin_callback, not_admin_portal.
  rewrite Hp, Hc, Hui, Huse. cbn [negb]. destruct w as [s r t].
  unfold session_user_id. run. cbn [s_user s_access_token s_rest user_of_claims u_id].
  by rewrite <- !app_assoc.
Qed.

Lemma precedes_sets_then_deletes (k1 k2 : string) :
  precedes is_session_set is_redis_delete
    [SessionSet "user"; SessionSet "access_token"; RedisDelete k1; RedisDelete k2].
Proof.
  intros i j e e' Hi Hp Hj Hq.
  destruct i as [|[|[|[|i]]]]; simpl in Hi; simplify_eq; try done;
    destruct j as [|[|[|[|j]]]]; simpl in Hj; simplify_eq; try done; lia.
Qed.

(** C3 (as amended). On a callback whose exchange yields usable identity
    claims, the view redirects to the dashboard after it has, in this order,
    stored the user record and the access token in the session and then
    deleted the marker of the new user id and the wildcard marker. Whatever
    markers the store held before, the session that results is let through
    by the gate at any later instant, as long as the store is not written to
    in between. *)
Theorem admin_callback_login (cfg : config) (token : token_t) (ui : userinfo_t) (w : world) :
  portal_is_admin cfg = true → keycloak_client cfg = true →
  t_userinfo token = Some ui → usable (Some ui) = true →
  ∃ w' t,
    admin_callback cfg (Exchanged token) w = (Redirect "/admin/dashboard", w') ∧
    s_user (session w') = Some (user_of_claims ui) ∧
    s_access_token (session w') = Some (t_access_token token) ∧
    session_user_id (session w') = claim ui "sub" ∧
    logout_redis w' =
      delete wildcard_key (delete (logout_key (claim ui "sub")) (logout_redis w)) ∧
    trace w' = (trace w ++ t)%list ∧
    t = [SessionSet "user"; SessionSet "access_token";
         RedisDelete (logout_key (claim ui "sub")); RedisDelete wildcard_key] ∧
    precedes is_session_set is_redis_delete t ∧
    (∀ now, fst (is_user_logged_out now (claim ui "sub") w') = false) ∧
    (∀ now f, require_auth now f w' = f w').
Proof.
  intros Hp Hc Hui Huse.
  rewrite (admin_callback_run cfg token ui w Hp Hc Hui Huse).
  eexists _, _. split; [reflexivity |].
  assert (∀ now r,
    alive (delete wildcard_key (delete (logout_key (claim ui "sub")) r)) now
      (logout_key (claim ui "sub"))
    || alive (delete wildcard_key (delete (logout_key (claim ui "sub")) r)) now
         wildcard_key = false) as Hdead.
  { intros now r. rewrite alive_delete_eq, orb_false_r.
    destruct (decide (wildcard_key = logout_key (claim ui "sub"))) as [<- | Hne].
    - apply alive_delete_eq.
    - rewrite alive_delete_ne by done. apply alive_delete_eq. }
  repeat split; try reflexivity.
  - apply precedes_sets_then_deletes.
  - intros now. rewrite is_user_logged_out_run. simpl. apply Hdead.
  - intros now f. rewrite require_auth_run. simpl. by rewrite Hdead.
Qed.

Lemma admin_callback_login_witness :
  ∃ w' t,
    admin_callback admin_cfg (Exchanged alice_token)
      (start empty_session sample_store) = (Redirect "/admin/dashboard", w') ∧
    s_user (session w') = Some (user_of_claims
        {| ui_claims := {[ "sub" := PyStr "alice"; "preferred_username" := PyStr "alice" ]};
           ui_realm_access := Some (Some ["admin"]) |}) ∧
    s_access_token (session w') = Some (PyStr "token") ∧
    session_user_id (session w') = PyStr "alice" ∧
    logout_redis w' = delete wildcard_key (delete "logout:alice" sample_store) ∧
    trace w' = ([] ++ t)%list ∧
    t = [SessionSet "user"; SessionSet "access_token";
         RedisDelete "logout:alice"; RedisDelete wildcard_key] ∧
    precedes is_session_set is_redis_delete t ∧
    (∀ now, fst (is_user_logged_out now (PyStr "alice") w') = false) ∧
    (∀ now f, require_auth now f w' = f w').
Proof.
  exact (admin_callback_login admin_cfg alice_token _
           (start empty_session sample_store) eq_refl eq_refl eq_refl eq_refl).
Defined.

(** C3 (as stated) fails on the order: in the callback for alice the two
    deletions come after the session has been populated, so it is not the
    case that every deletion precedes every write to the session. *)
Lemma admin_callback_populates_before_clearing :
  trace (snd (admin_callback admin_cfg (Exchanged alice_token)
                (start empty_session sample_store)))
    = [SessionSet "user"; SessionSet "access_token";
       RedisDelete "logout:alice"; RedisDelete "logout:*"] ∧
  ¬ precedes is_redis_delete is_session_set
      (trace (snd (admin_callback admin_cfg (Exchanged alice_token)
                     (start empty_session sample_store)))).
Proof.
  split; [by vm_compute |].
  intros H.
  specialize (H 2%nat 0%nat (RedisDelete "logout:alice") (SessionSet "user")).
  assert (2 < 0)%nat; [| lia].
  apply H; by vm_compute.
Qed.

(** Scenario 4 of the specification: alice logs in while the wildcard marker
    is alive; both markers are gone and the dashboard is served. *)
Example login_under_wildcard :
  let w := snd (admin_callback admin_cfg (Exchanged alice_token)
                  (start empty_session sample_store)) in
  logout_redis w !! wildcard_key = None ∧
  logout_redis w !! "logout:alice" = None ∧
  logout_redis w !! "logout:bob" = Some (Marker "1" 70) ∧
  ∃ u, fst (admin_dashboard admin_cfg 10 w) = RenderDashboard u true.
Proof. repeat split; try by vm_compute. eexists. by vm_compute. Qed.

(** ** Logout *)

(** What the back-channel branch computes. *)
Lemma logout_post_run (cfg : config) (now : Z) (logout_token : option string) (w : world) :
  logout cfg now POST logout_token w =
  (Body "Logout acknowledged" 200,
   {| session := if user_in_session (session w) then empty_session else session w;
      logout_redis :=
        <[wildcard_key := fresh_marker now]>
          (if truthy (session_user_id (session w))
           then <[logout_key (session_user_id (session w)) := fresh_marker now]>
                  (logout_redis w)
           else logout_redis w);
      trace :=
        (trace w
         ++ (if truthy (session_user_id (session w))
             then [RedisSetex (logout_key (session_user_id (session w))) 3600 "1"]
             else [])
         ++ [RedisSetex wildcard_key 3600 "1"]
         ++ (if user_in_session (session w) then [SessionClear] else []))%list |}).
Proof.
  unfold logout. destruct w as [s r t]. run.
  destruct (truthy (session_user_id s)), (user_in_session s); run;
    rewrite <- ?app_assoc; try reflexivity.
  all: by rewrite app_nil_r.
Qed.

(** What the front-channel branch computes. *)
Lemma logout_get_run (cfg : config) (now : Z) (logout_token : option string) (w : world) :
  logout cfg now GET logout_token w =
  (if portal_is_admin cfg then Redirect "/admin/login"
   else Body "Logged out. Please login again." 200,
   {| session := empty_session;
      logout_redis :=
        if truthy (session_user_id (session w))
        then <[logout_key (session_user_id (session w)) := fresh_marker now]>
               (logout_redis w)
        else logout_redis w;
      trace :=
        (trace w
         ++ (if truthy (session_user_id (session w))
             then [RedisSetex (logout_key (session_user_id (session w))) 3600 "1"]
             else [])
         ++ [SessionClear])%list |}).
Proof.
  unfold logout. destruct w as [s r t]. run.
  destruct (truthy (session_user_id s)), (portal_is_admin cfg); run;
    rewrite <- ?app_assoc; reflexivity.
Qed.

(** What [admin_logout] computes. *)
Lemma admin_logout_run (cfg : config) (now : Z) (w : world) :
  admin_logout cfg now w =
  if portal_is_admin cfg then
    (Redirect ("http://localhost:8080/realms/enterprise-sso/protocol/openid-connect/logout?post_logout_redirect_uri="
               ++ url_root cfg ++ "/admin/login"),
     {| session := empty_session;
        logout_redis :=
          if truthy (session_user_id (session w))
          then <[logout_key (session_user_id (session w)) := fresh_marker now]>
                 (logout_redis w)
          else logout_redis w;
        trace :=
          (trace w
           ++ (if truthy (session_user_id (session w))
               then [RedisSetex (logout_key (session_user_id (session w))) 3600 "1"]
               else [])
           ++ [SessionClear])%list |})
  else (Body "Not available on this portal" 404, w).
Proof.
  unfold admin_logout, not_admin_portal. destruct w as [s r t].
  destruct (portal_is_admin cfg); cbn [negb]; [| reflexivity]. run.
  destruct (truthy (session_user_id s)); run;
    rewrite <- ?app_assoc; reflexivity.
Qed.

(** C4 (as amended). A POST to the logout endpoint, with or without a
    [logout_token] and whatever the token is, always answers "Logout
    acknowledged" with status 200 and never redirects; it writes the wildcard
    marker, writes a marker for the session's user id exactly when that id is
    a non-empty value, changes no other key of the store, and clears the
    session exactly when it holds a ['user'] entry. *)
Theorem logout_back_channel (cfg : config) (now : Z) (logout_token : option string)
    (w : world) :
  ∃ w',
    logout cfg now POST logout_token w = (Body "Logout acknowledged" 200, w') ∧
    logout_redis w' !! wildcard_key = Some (fresh_marker now) ∧
    alive (logout_redis w') now wildcard_key = true ∧
    logout_redis w' =
      <[wildcard_key := fresh_marker now]>
        (if truthy (session_user_id (session w))
         then <[logout_key (session_user_id (session w)) := fresh_marker now]>
                (logout_redis w)
         else logout_redis w) ∧
    session w' = (if user_in_session (session w) then empty_session else session w).
Proof.
  rewrite logout_post_run. eexists. split; [reflexivity |].
  cbn [logout_redis session]. repeat split.
  - apply lookup_insert_eq.
  - rewrite alive_insert_eq. apply bool_decide_eq_true. simpl. lia.
Qed.

(** C4 (as stated) fails: the session is present, yet its user record has no
    id, and the back-channel logout writes the wildcard marker only -- no
    marker appears under the key of that user id. *)
Lemma logout_back_channel_skips_missing_id :
  let w := start (session_of nameless) ∅ in
  let w' := snd (logout admin_cfg 0 POST (Some "eyJhbGciOi") w) in
  user_in_session (session w) = true ∧
  logout_redis w' !! logout_key (session_user_id (session w)) = None ∧
  logout_redis w' = {[ wildcard_key := Marker "1" 3600 ]} ∧
  session w' = empty_session.
Proof. by vm_compute. Qed.

(** Scenario 2 of the specification: back-channel logout without a session. *)
Example back_channel_without_session :
  logout internal_cfg 7 POST None (start empty_session ∅)
  = (Body "Logout acknowledged" 200,
     {| session := empty_session;
        logout_redis := {[ wildcard_key := Marker "1" 3607 ]};
        trace := [RedisSetex "logout:*" 3600 "1"] |}).
Proof. by vm_compute. Qed.

(** C8 (as amended). For a session whose user id is a non-empty value, a GET
    to [/logout] or [/logout.html] writes the marker of that id, clears the
    session, and answers with a redirect to the login page on the admin
    portal and with the generic acknowledgement on any other portal. A GET to
    [/admin/logout] does the same marking and clearing on the admin portal
    but redirects to the identity provider's logout endpoint, which is given
    the login page as return address; on any other portal it answers 404 and
    changes nothing. *)
Theorem logout_front_channel (cfg : config) (now : Z) (logout_token : option string)
    (w : world) (u : user) :
  s_user (session w) = Some u → truthy (u_id u) = true →
  (∃ w',
     logout cfg now GET logout_token w =
       (if portal_is_admin cfg then Redirect "/admin/login"
        else Body "Logged out. Please login again." 200, w') ∧
     session w' = empty_session ∧
     logout_redis w' = <[logout_key (u_id u) := fresh_marker now]> (logout_redis w)) ∧
  (portal_is_admin cfg = true →
   ∃ w',
     admin_logout cfg now w =
       (Redirect ("http://localhost:8080/realms/enterprise-sso/protocol/openid-connect/logout?post_logout_redirect_uri="
                  ++ url_root cfg ++ "/admin/login"), w') ∧
     session w' = empty_session ∧
     logout_redis w' = <[logout_key (u_id u) := fresh_marker now]> (logout_redis w)) ∧
  (portal_is_admin cfg = false →
   admin_logout cfg now w = (Body "Not available on this portal" 404, w)).
Proof.
  intros Hu Hid.
  assert (session_user_id (session w) = u_id u) as Hsid
    by (unfold session_user_id; by rewrite Hu).
  rewrite logout_get_run, admin_logout_run, Hsid, Hid.
  repeat split.
  - eexists. repeat split; reflexivity.
  - intros ->. eexists. repeat split; reflexivity.
  - by intros ->.
Qed.

Lemma logout_front_channel_witness :
  ∃ w',
    logout internal_cfg 0 GET None (start (session_of alice) ∅) =
      (Body "Logged out. Please login again." 200, w') ∧
    session w' = empty_session ∧
    logout_redis w' = <[ "logout:alice" := Marker "1" 3600 ]> ∅.
Proof.
  exact (proj1 (logout_front_channel internal_cfg 0 None
                  (start (session_of alice) ∅) alice eq_refl eq_refl)).
Defined.

(** C8 (as stated) fails for [/admin/logout]: on a portal other than the
    admin portal, alice's session is neither marked nor cleared and the
    answer is the 404; on the admin portal the redirect goes to the identity
    provider, not to the login page. *)
Lemma admin_logout_differs :
  admin_logout internal_cfg 0 (start (session_of alice) ∅)
    = (Body "Not available on this portal" 404, start (session_of alice) ∅) ∧
  fst (admin_logout admin_cfg 0 (start (session_of alice) ∅))
    = Redirect "http://localhost:8080/realms/enterprise-sso/protocol/openid-connect/logout?post_logout_redirect_uri=https://portal.example.org/admin/login" ∧
  fst (admin_logout admin_cfg 0 (start (session_of alice) ∅)) ≠ Redirect "/admin/login".
Proof. by vm_compute. Qed.

(** Scenario 3 of the specification: front-channel logout of alice, then a
    request to the dashboard. *)
Example front_channel_then_dashboard :
  let w := snd (logout admin_cfg 0 GET None (start (session_of alice) ∅)) in
  logout_redis w !! "logout:alice" = Some (Marker "1" 3600) ∧
  session w = empty_session ∧
  fst (admin_dashboard admin_cfg 1 w) = Redirect "/admin/login".
Proof. by vm_compute. Qed.

(** ** Lifetime of the markers *)

Lemma default_marks_only_refl (now : Z) (w : world) : default_marks_only now w w.
Proof.
  split; [by left |]. exists []. by rewrite app_nil_r.
Qed.

Lemma default_marks_only_trans (now : Z) (w1 w2 w3 : world) :
  default_marks_only now w1 w2 → default_marks_only now w2 w3 →
  default_marks_only now w1 w3.
Proof.
  intros [H1 (t1 & Ht1 & Hf1)] [H2 (t2 & Ht2 & Hf2)]. split.
  - intros k m Hk. destruct (H2 k m Hk) as [Hold | ->]; [by apply H1 | by right].
  - exists (t1 ++ t2)%list. split.
    + by rewrite Ht2, Ht1, app_assoc.
    + by apply Forall_app.
Qed.

Section keeps.
Variable now : Z.

Lemma keeps_ret {A : Type} (a : A) : keeps_default_ttl now (ret a).
Proof. intros w. apply default_marks_only_refl. Qed.

Lemma keeps_bind {A B : Type} (m : M A) (k : A → M B) :
  keeps_default_ttl now m → (∀ a, keeps_default_ttl now (k a)) →
  keeps_default_ttl now (bind m k).
Proof.
  intros Hm Hk w. unfold bind. specialize (Hm w).
  destruct (m w) as [a w1]. eapply default_marks_only_trans; [exact Hm |].
  apply Hk.
Qed.

Lemma keeps_if {A : Type} (b : bool) (m1 m2 : M A) :
  keeps_default_ttl now m1 → keeps_default_ttl now m2 →
  keeps_default_ttl now (if b then m1 else m2).
Proof. by destruct b. Qed.

Lemma keeps_get_session : keeps_default_ttl now get_session.
Proof. intros w. apply default_marks_only_refl. Qed.

Lemma keeps_redis_exists (t : Z) (key : string) :
  keeps_default_ttl now (redis_exists t key).
Proof. intros w. apply default_marks_only_refl. Qed.

Lemma keeps_is_user_logged_out (t : Z) (user_id : pyval) :
  keeps_default_ttl now (is_user_logged_out t user_id).
Proof.
  intros w. rewrite is_user_logged_out_run. apply default_marks_only_refl.
Qed.

Lemma keeps_session_clear : keeps_default_ttl now session_clear.
Proof.
  intros w. split; [by left |]. exists [SessionClear].
  split; [done |]. by repeat constructor.
Qed.

Lemma keeps_session_set_user (u : user) :
  keeps_default_ttl now (session_set_user u).
Proof.
  intros w. split; [by left |]. exists [SessionSet "user"].
  split; [done |]. by repeat constructor.
Qed.

Lemma keeps_session_set_access_token (v : pyval) :
  keeps_default_ttl now (session_set_access_token v).
Proof.
  intros w. split; [by left |]. exists [SessionSet "access_token"].
  split; [done |]. by repeat constructor.
Qed.

Lemma keeps_redis_delete (key : string) :
  keeps_default_ttl now (redis_delete key).
Proof.
  intros w. split.
  - intros k m. run. intros Hk. left.
    apply lookup_delete_Some in Hk. tauto.
  - exists [RedisDelete key]. split; [done |]. by repeat constructor.
Qed.

Lemma keeps_clear_logout_state (user_id : pyval) :
  keeps_default_ttl now (clear_logout_state user_id).
Proof. apply keeps_redis_delete. Qed.

(** The one place where markers are born: with [ttl] left out, the marker
    expires 3600 seconds after [now]. *)
Lemma keeps_mark_user_logged_out (user_id : pyval) :
  keeps_default_ttl now (mark_user_logged_out now user_id None).
Proof.
  intros w. split.
  - intros k m. run. intros Hk.
    apply lookup_insert_Some in Hk as [[_ <-] | [_ Hk]]; [by right | by left].
  - exists [RedisSetex (logout_key user_id) 3600 "1"].
    split; [done |]. by repeat constructor.
Qed.

Lemma keeps_require_auth (f : M response) :
  keeps_default_ttl now f → keeps_default_ttl now (require_auth now f).
Proof.
  intros Hf. unfold require_auth.
  apply keeps_bind; [apply keeps_get_session | intros s].
  apply keeps_if; [apply keeps_ret |].
  apply keeps_bind; [apply keeps_is_user_logged_out | intros out].
  apply keeps_if; [| exact Hf].
  apply keeps_bind; [apply keeps_session_clear | intros _].
  apply keeps_bind; [apply keeps_redis_exists | intros everyone].
  apply keeps_bind; [| intros _; apply keeps_ret].
  apply keeps_if; [apply keeps_mark_user_logged_out | apply keeps_ret].
Qed.
End keeps.

#[local] Hint Resolve keeps_ret keeps_bind keeps_if keeps_get_session
  keeps_redis_exists keeps_is_user_logged_out keeps_session_clear
  keeps_session_set_user keeps_session_set_access_token keeps_redis_delete
  keeps_clear_logout_state keeps_mark_user_logged_out keeps_require_auth : keeps.
#[local] Hint Extern 1 (keeps_default_ttl _ (match ?x with _ => _ end)) =>
  destruct x : keeps.

Lemma keeps_admin_login (cfg : config) (now : Z) :
  keeps_default_ttl now (admin_login cfg now).
Proof. unfold admin_login. eauto 20 with keeps. Qed.

Lemma keeps_admin_callback (cfg : config) (now : Z) (oidc : exchange) :
  keeps_default_ttl now (admin_callback cfg oidc).
Proof. unfold admin_callback. eauto 30 with keeps. Qed.

Lemma keeps_admin_dashboard (cfg : config) (now : Z) :
  keeps_default_ttl now (admin_dashboard cfg now).
Proof.
  unfold admin_dashboard. apply keeps_require_auth.
  unfold admin_dashboard_view. eauto 20 with keeps.
Qed.

Lemma keeps_logout (cfg : config) (now : Z) (method : http_method)
    (logout_token : option string) :
  keeps_default_ttl now (logout cfg now method logout_token).
Proof. unfold logout. destruct method; eauto 30 with keeps. Qed.

Lemma keeps_admin_logout (cfg : config) (now : Z) :
  keeps_default_ttl now (admin_logout cfg now).
Proof. unfold admin_logout. eauto 30 with keeps. Qed.

(** C10. Whatever the request, a marker found in the store afterwards is
    either the one that was there before under the same key, or a marker with
    value ["1"] that expires exactly 3600 seconds after the request, and every
    [SETEX] the request issues carries a lifetime of 3600 seconds. In
    particular, when the gate re-marks a user after a wildcard hit, the
    user's marker expires 3600 seconds after the request, however little
    lifetime the wildcard marker has left. *)
Theorem markers_get_default_ttl (cfg : config) (now : Z) (req : request) (w : world) :
  default_marks_only now w (snd (dispatch cfg now req w)) ∧
  (∀ (f : M response) (u : user) (wild : marker),
     s_user (session w) = Some u → truthy (u_id u) = true →
     logout_redis w !! wildcard_key = Some wild → now < m_expires_at wild →
     logout_redis (snd (require_auth now f w)) !! logout_key (u_id u)
       = Some (Marker "1" (now + 3600))).
Proof.
  split.
  - destruct req; simpl;
      [ apply keeps_admin_login | apply keeps_admin_callback
      | apply keeps_admin_dashboard | apply keeps_logout
      | apply keeps_admin_logout ].
  - intros f u wild Hu Hid Hw Hlt.
    assert (alive (logout_redis w) now wildcard_key = true) as Hwild.
    { unfold alive. rewrite Hw. by apply bool_decide_eq_true. }
    rewrite require_auth_run, Hu, Hwild, Hid, orb_true_r. simpl.
    apply lookup_insert_eq.
Qed.

(** Scenario 5 of the specification: a wildcard hit with five seconds left
    re-marks alice for a full hour; the next request, after the wildcard has
    expired, is still stopped by alice's own marker. *)
Example remark_outlives_wildcard :
  let r : gmap string marker := {[ wildcard_key := Marker "1" 105 ]} in
  let w1 := snd (admin_dashboard admin_cfg 100 (start (session_of alice) r)) in
  let w2 := start (session_of alice) (logout_redis w1) in
  logout_redis w1 !! "logout:alice" = Some (Marker "1" 3700) ∧
  alive (logout_redis w1) 200 wildcard_key = false ∧
  fst (admin_dashboard admin_cfg 200 w2) = Redirect "/admin/login".
Proof. by vm_compute. Qed.

(** The session without a user id used above is the one the callback
    stores for claims that carry no [sub]. *)
Example session_without_id_is_reachable :
  session (snd (admin_callback admin_cfg (Exchanged no_sub_token) (start empty_session ∅)))
  = session_of nameless.
Proof. by vm_compute. Qed.

(** * Further properties of the code *)

(** ** Marking, expiry and clearing *)

Lemma mark_user_logged_out_run (now : Z) (user_id : pyval) (w : world) :
  mark_user_logged_out now user_id None w =
  (tt, {| session := session w;
          logout_redis := <[logout_key user_id := fresh_marker now]> (logout_redis w);
          trace := (trace w ++ [RedisSetex (logout_key user_id) 3600 "1"])%list |}).
Proof. reflexivity. Qed.

Lemma logout_key_str_ne (S T : string) :
  S ≠ T → logout_key (PyStr S) ≠ logout_key (PyStr T).
Proof. intros Hne H. apply logout_key_inj in H. simpl in H. congruence. Qed.

Lemma logout_key_not_wildcard (a : pyval) :
  py_format a ≠ "*" → logout_key a ≠ wildcard_key.
Proof. intros Hne H. by apply logout_key_wildcard in H. Qed.

(** X1. Marking a concrete subject is local to that subject: for any other
    subject the answer of [is_user_logged_out] is, at every instant, what it
    was before, no other key of the store changes, and the session is not
    touched. *)
Theorem mark_user_logged_out_frame (t : Z) (S T : string) (w : world) :
  S ≠ "*" → T ≠ S →
  let w' := snd (mark_user_logged_out t (PyStr S) None w) in
  (∀ now, fst (is_user_logged_out now (PyStr T) w')
          = fst (is_user_logged_out now (PyStr T) w)) ∧
  (∀ k, k ≠ logout_key (PyStr S) → logout_redis w' !! k = logout_redis w !! k) ∧
  session w' = session w.
Proof.
  intros HS HT w'. subst w'. rewrite mark_user_logged_out_run. cbn [snd].
  repeat split.
  - intros now. rewrite !is_user_logged_out_run. cbn [fst logout_redis].
    rewrite !alive_insert_ne; [done | |].
    + by apply logout_key_not_wildcard.
    + apply logout_key_str_ne. congruence.
  - intros k Hk. cbn [logout_redis]. by rewrite lookup_insert_ne.
Qed.

Lemma mark_user_logged_out_frame_witness :
  fst (is_user_logged_out 10 (PyStr "bob")
         (snd (mark_user_logged_out 0 (PyStr "alice") None (start empty_session ∅))))
  = fst (is_user_logged_out 10 (PyStr "bob") (start empty_session ∅)).
Proof.
  exact (proj1 (mark_user_logged_out_frame 0 "alice" "bob" (start empty_session ∅)
                  ltac:(discriminate) ltac:(discriminate)) 10).
Defined.

(** X2. Marking is idempotent up to the lifetime: marking a subject again
    leaves the store that a single mark at the later instant would leave, so
    the marker lives 3600 seconds from the last mark, whatever was left of
    the earlier one. *)
Theorem mark_again_resets_lifetime (t1 t2 : Z) (user_id : pyval) (w : world) :
  logout_redis (snd (mark_user_logged_out t2 user_id None
                       (snd (mark_user_logged_out t1 user_id None w))))
  = logout_redis (snd (mark_user_logged_out t2 user_id None w)) ∧
  ∀ now, alive (logout_redis (snd (mark_user_logged_out t2 user_id None
                                     (snd (mark_user_logged_out t1 user_id None w)))))
           now (logout_key user_id)
         = bool_decide (now < t2 + 3600).
Proof.
  rewrite !mark_user_logged_out_run. cbn [snd logout_redis]. split.
  - apply insert_insert_eq.
  - intros now. by rewrite alive_insert_eq.
Qed.

(** X3. Marking a subject that had no marker and clearing it again gives the
    store back as it was. *)
Theorem mark_then_clear_restores (t : Z) (user_id : pyval) (w : world) :
  logout_redis w !! logout_key user_id = None →
  logout_redis (snd (clear_logout_state user_id
                       (snd (mark_user_logged_out t user_id None w))))
  = logout_redis w.
Proof.
  intros Hnone. rewrite mark_user_logged_out_run. cbn [snd]. run.
  rewrite delete_insert_eq. by apply delete_id.
Qed.

Lemma mark_then_clear_restores_witness :
  logout_redis (snd (clear_logout_state (PyStr "alice")
                       (snd (mark_user_logged_out 0 (PyStr "alice") None
                               (start empty_session sample_store)))))
  = logout_redis (start empty_session sample_store).
Proof.
  exact (mark_then_clear_restores 0 (PyStr "alice")
           (start empty_session sample_store) eq_refl).
Defined.

(** X4. A marker counts for exactly 3600 seconds: after a concrete subject
    is marked at [t], [is_user_logged_out] answers true at every instant
    before [t + 3600], and from then on it answers what the wildcard marker
    alone decides. *)
Theorem marker_lifetime (t now : Z) (user_id : pyval) (w : world) :
  py_format user_id ≠ "*" →
  fst (is_user_logged_out now user_id
         (snd (mark_user_logged_out t user_id None w)))
  = bool_decide (now < t + 3600) || alive (logout_redis w) now wildcard_key.
Proof.
  intros Hne. rewrite mark_user_logged_out_run, is_user_logged_out_run.
  cbn [fst snd logout_redis].
  rewrite alive_insert_eq, alive_insert_ne; [done |].
  by apply logout_key_not_wildcard.
Qed.

Lemma marker_lifetime_witness :
  fst (is_user_logged_out 3600 (PyStr "alice")
         (snd (mark_user_logged_out 0 (PyStr "alice") None (start empty_session ∅))))
  = bool_decide (3600 < 0 + 3600) || alive ∅ 3600 wildcard_key.
Proof.
  exact (marker_lifetime 0 3600 (PyStr "alice") (start empty_session ∅)
           ltac:(discriminate)).
Defined.

(** ** Logout, login and the gate, one after the other *)

Lemma gate_stops_marked (now : Z) (w : world) (u : user) :
  s_user (session w) = Some u →
  alive (logout_redis w) now (logout_key (u_id u))
  || alive (logout_redis w) now wildcard_key = true →
  gate_stops now w.
Proof.
  intros Hu Hout f. rewrite require_auth_run, Hu, Hout.
  eexists. split; [reflexivity |].
  by destruct (alive (logout_redis w) now wildcard_key && truthy (u_id u)).
Qed.

Lemma gate_admits_unmarked (now : Z) (w : world) (u : user) :
  s_user (session w) = Some u →
  alive (logout_redis w) now (logout_key (u_id u))
  || alive (logout_redis w) now wildcard_key = false →
  gate_admits now w.
Proof. intros Hu Hout f. by rewrite require_auth_run, Hu, Hout. Qed.

(** X5. A front-channel logout reaches every session of the user: once a
    session with a non-empty user id has logged out through [/logout] (or,
    on the admin portal, through [/admin/logout]), any other session that
    carries the same user id is stopped by the gate and cleared, at every
    instant before the marker's 3600 seconds are over. *)
Theorem front_channel_logout_reaches_every_session
    (cfg : config) (t now : Z) (logout_token : option string) (w : world)
    (u : user) (s2 : session_t) (u2 : user) :
  s_user (session w) = Some u → truthy (u_id u) = true →
  s_user s2 = Some u2 → u_id u2 = u_id u → now < t + 3600 →
  gate_stops now (with_session s2 (snd (logout cfg t GET logout_token w))) ∧
  (portal_is_admin cfg = true →
   gate_stops now (with_session s2 (snd (admin_logout cfg t w)))).
Proof.
  intros Hu Hid Hu2 Hsame Hlt.
  assert (session_user_id (session w) = u_id u) as Hsid
    by (unfold session_user_id; by rewrite Hu).
  rewrite logout_get_run, admin_logout_run, Hsid, Hid.
  assert (∀ r, alive (<[logout_key (u_id u) := fresh_marker t]> r) now
                 (logout_key (u_id u2)) = true) as Hkey.
  { intros r. rewrite Hsame, alive_insert_eq. by apply bool_decide_eq_true. }
  split; [| intros ->];
    (eapply gate_stops_marked; [exact Hu2 |]);
    cbn [snd with_session logout_redis]; by rewrite Hkey.
Qed.

Lemma front_channel_logout_reaches_every_session_witness :
  gate_stops 3599
    (with_session (session_of alice)
       (snd (logout internal_cfg 0 GET None (start (session_of alice) ∅)))).
Proof.
  exact (proj1 (front_channel_logout_reaches_every_session internal_cfg 0 3599 None
                  (start (session_of alice) ∅) alice (session_of alice) alice
                  eq_refl eq_refl eq_refl eq_refl eq_refl)).
Defined.

(** X6. The invalidation ends with the marker: 3600 seconds after the
    front-channel logout, a session that still carries the user id is let
    through by the gate again, unless a wildcard marker is alive then. *)
Theorem expired_marker_readmits
    (cfg : config) (t now : Z) (logout_token : option string) (w : world)
    (u : user) (s2 : session_t) (u2 : user) :
  s_user (session w) = Some u → truthy (u_id u) = true →
  py_format (u_id u) ≠ "*" →
  s_user s2 = Some u2 → u_id u2 = u_id u →
  (t + 3600 ≤ now)%Z → alive (logout_redis w) now wildcard_key = false →
  gate_admits now (with_session s2 (snd (logout cfg t GET logout_token w))).
Proof.
  intros Hu Hid Hstar Hu2 Hsame Hge Hwild.
  assert (session_user_id (session w) = u_id u) as Hsid
    by (unfold session_user_id; by rewrite Hu).
  rewrite logout_get_run, Hsid, Hid.
  eapply gate_admits_unmarked; [exact Hu2 |].
  cbn [snd with_session logout_redis]. rewrite Hsame, alive_insert_eq.
  rewrite alive_insert_ne by by apply logout_key_not_wildcard.
  rewrite Hwild, orb_false_r. apply bool_decide_eq_false. simpl. lia.
Qed.

Lemma expired_marker_readmits_witness :
  gate_admits 3600
    (with_session (session_of alice)
       (snd (logout admin_cfg 0 GET None (start (session_of alice) ∅)))).
Proof.
  exact (expired_marker_readmits admin_cfg 0 3600 None
           (start (session_of alice) ∅) alice (session_of alice) alice
           eq_refl eq_refl ltac:(discriminate) eq_refl eq_refl
           ltac:(done) eq_refl).
Defined.

(** X7. A back-channel logout stops everybody: for 3600 seconds after a
    POST to the logout endpoint, the gate stops and clears every session
    that has a user record, whoever the user is and whatever the store held
    before. *)
Theorem back_channel_logout_stops_everyone
    (cfg : config) (t now : Z) (logout_token : option string) (w : world)
    (s2 : session_t) (u2 : user) :
  s_user s2 = Some u2 → now < t + 3600 →
  gate_stops now (with_session s2 (snd (logout cfg t POST logout_token w))).
Proof.
  intros Hu2 Hlt. rewrite logout_post_run.
  eapply gate_stops_marked; [exact Hu2 |].
  cbn [snd with_session logout_redis]. rewrite (alive_insert_eq _ now wildcard_key).
  rewrite orb_true_iff. right. by apply bool_decide_eq_true.
Qed.

Lemma back_channel_logout_stops_everyone_witness :
  gate_stops 10
    (with_session (session_of alice)
       (snd (logout internal_cfg 0 POST None (start empty_session ∅)))).
Proof.
  exact (back_channel_logout_stops_everyone internal_cfg 0 10 None
           (start empty_session ∅) (session_of alice) alice eq_refl eq_refl).
Defined.

(** X8. One login lifts the wildcard for everybody: after a successful
    callback, [is_user_logged_out] answers for any other subject what that
    subject's own marker says -- the wildcard marker no longer counts,
    whoever it was that logged in. *)
Theorem login_lifts_wildcard_for_all
    (cfg : config) (token : token_t) (ui : userinfo_t) (w : world)
    (now : Z) (other : pyval) :
  portal_is_admin cfg = true → keycloak_client cfg = true →
  t_userinfo token = Some ui → usable (Some ui) = true →
  py_format other ≠ py_format (claim ui "sub") → py_format other ≠ "*" →
  fst (is_user_logged_out now other (snd (admin_callback cfg (Exchanged token) w)))
  = alive (logout_redis w) now (logout_key other).
Proof.
  intros Hp Hc Hui Huse Hne Hstar.
  rewrite (admin_callback_run cfg token ui w Hp Hc Hui Huse).
  rewrite is_user_logged_out_run. cbn [fst snd logout_redis].
  rewrite alive_delete_eq, orb_false_r.
  rewrite alive_delete_ne.
  - apply alive_delete_ne. intros H. apply logout_key_inj in H. congruence.
  - intros H. symmetry in H. by apply logout_key_wildcard in H.
Qed.

Lemma login_lifts_wildcard_for_all_witness :
  fst (is_user_logged_out 10 (PyStr "carol")
         (snd (admin_callback admin_cfg (Exchanged alice_token)
                 (start empty_session sample_store))))
  = alive (logout_redis (start empty_session sample_store)) 10 (logout_key (PyStr "carol")).
Proof.
  exact (login_lifts_wildcard_for_all admin_cfg alice_token _
           (start empty_session sample_store) 10 (PyStr "carol")
           eq_refl eq_refl eq_refl eq_refl ltac:(discriminate) ltac:(discriminate)).
Defined.

(** X9. The gate's re-mark outlives a login of somebody else: when the gate
    has stopped a user on a wildcard hit at [t] and another subject then
    logs in (which deletes the wildcard marker), a session that still carries
    the first user's id is stopped all the same until [t + 3600]. *)
Theorem remark_survives_other_login
    (cfg : config) (t now : Z) (f : M response) (w : world) (u : user)
    (token : token_t) (ui : userinfo_t) (s_other s2 : session_t) (u2 : user) :
  s_user (session w) = Some u → truthy (u_id u) = true →
  alive (logout_redis w) t wildcard_key = true →
  portal_is_admin cfg = true → keycloak_client cfg = true →
  t_userinfo token = Some ui → usable (Some ui) = true →
  py_format (claim ui "sub") ≠ py_format (u_id u) →
  py_format (u_id u) ≠ "*" →
  s_user s2 = Some u2 → u_id u2 = u_id u → now < t + 3600 →
  gate_stops now
    (with_session s2
       (snd (admin_callback cfg (Exchanged token)
               (with_session s_other (snd (require_auth t f w)))))).
Proof.
  intros Hu Hid Hwild Hp Hc Hui Huse Hne Hstar Hu2 Hsame Hlt.
  rewrite (admin_callback_run cfg token ui _ Hp Hc Hui Huse).
  rewrite require_auth_run, Hu, Hwild, Hid, orb_true_r.
  eapply gate_stops_marked; [exact Hu2 |].
  cbn [snd with_session logout_redis andb]. rewrite Hsame.
  rewrite alive_delete_ne by (intros H; symmetry in H; by apply logout_key_wildcard in H).
  rewrite alive_delete_ne by (intros H; apply logout_key_inj in H; congruence).
  rewrite alive_insert_eq. apply orb_true_iff. left.
  by apply bool_decide_eq_true.
Qed.

Lemma remark_survives_other_login_witness :
  gate_stops 60
    (with_session (session_of alice)
       (snd (admin_callback admin_cfg (Exchanged bob_token)
               (with_session empty_session
                  (snd (require_auth 0 (ret RenderLogin)
                          (start (session_of alice) sample_store))))))).
Proof.
  exact (remark_survives_other_login admin_cfg 0 60 (ret RenderLogin)
           (start (session_of alice) sample_store) alice bob_token _
           empty_session (session_of alice) alice
           eq_refl eq_refl eq_refl eq_refl eq_refl eq_refl eq_refl
           ltac:(discriminate) ltac:(discriminate) eq_refl eq_refl eq_refl).
Defined.

(** ** The login page *)

(** What [admin_login] computes. *)
Lemma admin_login_run (cfg : config) (now : Z) (w : world) :
  admin_login cfg now w =
  if portal_is_admin cfg then
    match s_user (session w) with
    | None => (RenderLogin, w)
    | Some u =>
        if alive (logout_redis w) now (logout_key (u_id u))
           || alive (logout_redis w) now wildcard_key
        then (RenderLogin,
              {| session := empty_session; logout_redis := logout_redis w;
                 trace := (trace w ++ [SessionClear])%list |})
        else (Redirect "/admin/dashboard", w)
    end
  else (Body "Not available on this portal" 404, w).
Proof.
  unfold admin_login, not_admin_portal, user_in_session, session_user_id.
  destruct w as [s r t]. destruct (portal_is_admin cfg); cbn [negb]; [| done].
  run. destruct (s_user s) as [u|]; [| done].
  destruct (alive r now (logout_key (u_id u))) eqn:Hown,
           (alive r now wildcard_key) eqn:Hwild; run; reflexivity.
Qed.

(** X10. The login page never writes to the marker store -- unlike the
    gate, it does not re-mark a user it finds logged out by the wildcard. It
    sends the browser on to the dashboard exactly when the portal is the
    admin portal and the session has a user that is not logged out, and then
    it changes nothing at all; a session whose user is logged out is cleared
    and gets the login page. *)
Theorem admin_login_spec (cfg : config) (now : Z) (w : world) :
  logout_redis (snd (admin_login cfg now w)) = logout_redis w ∧
  (fst (admin_login cfg now w) = Redirect "/admin/dashboard" ↔
     portal_is_admin cfg = true ∧
     ∃ u, s_user (session w) = Some u ∧
          fst (is_user_logged_out now (u_id u) w) = false) ∧
  (fst (admin_login cfg now w) = Redirect "/admin/dashboard" →
     snd (admin_login cfg now w) = w) ∧
  (∀ u, portal_is_admin cfg = true → s_user (session w) = Some u →
        fst (is_user_logged_out now (u_id u) w) = true →
        fst (admin_login cfg now w) = RenderLogin ∧
        session (snd (admin_login cfg now w)) = empty_session).
Proof.
  rewrite admin_login_run. setoid_rewrite is_user_logged_out_run. cbn [fst].
  destruct (portal_is_admin cfg).
  2: { cbn [fst snd]. split; [done |]. split; [split; [done | by intros [? _]] |].
       split; [done |]. by intros. }
  destruct (s_user (session w)) as [u|] eqn:Hu.
  2: { cbn [fst snd]. split; [done |].
       split; [split; [done | by intros (_ & ? & ? & _)] |].
       split; [done |]. by intros. }
  destruct (alive (logout_redis w) now (logout_key (u_id u))
            || alive (logout_redis w) now wildcard_key) eqn:Hout; cbn [fst snd].
  - split; [done |].
    split; [split; [done | intros (_ & u' & Hu' & Hf); simplify_eq; congruence] |].
    split; [done |]. by intros.
  - split; [done |]. split; [split; [| done] |].
    + intros _. split; [done |]. exists u. by split.
    + split; [done |]. intros u' _ Hu' Hf. simplify_eq. congruence.
Qed.

(** X11. The login page and the gate never send a browser back and forth:
    on the admin portal, when the login page redirects to the dashboard the
    dashboard is rendered for that very session, and when the dashboard
    redirects to the login page the login page is rendered. *)
Theorem login_and_gate_agree (cfg : config) (now : Z) (w : world) :
  portal_is_admin cfg = true →
  (fst (admin_login cfg now w) = Redirect "/admin/dashboard" →
     ∃ u is_admin, admin_dashboard cfg now w = (RenderDashboard u is_admin, w)) ∧
  (fst (admin_dashboard cfg now w) = Redirect "/admin/login" →
     fst (admin_login cfg now (snd (admin_dashboard cfg now w))) = RenderLogin).
Proof.
  intros Hp. unfold admin_dashboard.
  assert (∀ w0 u, s_user (session w0) = Some u →
            ∃ is_admin, admin_dashboard_view cfg w0 = (RenderDashboard u is_admin, w0))
    as Hview.
  { intros [s0 r0 t0] u0 Hu0. unfold admin_dashboard_view, not_admin_portal.
    rewrite Hp. cbn [negb]. run. cbn [session] in Hu0. rewrite Hu0. by eexists. }
  rewrite admin_login_run, require_auth_run, Hp.
  destruct (s_user (session w)) as [u|] eqn:Hu.
  2: { split; [done |]. intros _. cbn [snd].
       by rewrite admin_login_run, Hp, Hu. }
  destruct (alive (logout_redis w) now (logout_key (u_id u))
            || alive (logout_redis w) now wildcard_key) eqn:Hout.
  - split; [done |]. intros _. cbn [snd]. rewrite admin_login_run, Hp.
    by destruct (alive (logout_redis w) now wildcard_key && truthy (u_id u)).
  - destruct (Hview w u Hu) as [is_admin Hv]. rewrite Hv. split.
    + intros _. by exists u, is_admin.
    + done.
Qed.

Lemma login_and_gate_agree_witness :
  fst (admin_login admin_cfg 0
         (snd (admin_dashboard admin_cfg 0 (start (session_of alice) sample_store))))
    = RenderLogin.
Proof.
  exact (proj2 (login_and_gate_agree admin_cfg 0
                  (start (session_of alice) sample_store) eq_refl) eq_refl).
Defined.

(** ** The dashboard *)

(** X12. The dashboard has three answers and no other: the gate's redirect
    to the login page, the 404 of a portal that is not the admin portal, or
    the page rendered for the user of the session, flagged as administrator
    exactly when the roles contain ["admin"] or ["approver"]; in the last
    two cases the world is left as it was. In particular the view never
    fails on a session without a user record. *)
Theorem admin_dashboard_answers (cfg : config) (now : Z) (w : world) :
  (∃ w', admin_dashboard cfg now w = (Redirect "/admin/login", w')) ∨
  admin_dashboard cfg now w = (Body "Not available on this portal" 404, w) ∨
  (∃ u, s_user (session w) = Some u ∧
        admin_dashboard cfg now w =
          (RenderDashboard u (bool_decide ("admin" ∈ u_roles u)
                              || bool_decide ("approver" ∈ u_roles u)), w)).
Proof.
  unfold admin_dashboard. rewrite require_auth_run.
  destruct (s_user (session w)) as [u|] eqn:Hu; [| left; by eexists].
  destruct (alive (logout_redis w) now (logout_key (u_id u))
            || alive (logout_redis w) now wildcard_key); [left; by eexists |].
  right. unfold admin_dashboard_view, not_admin_portal.
  destruct (portal_is_admin cfg); cbn [negb]; [right | by left].
  exists u. split; [done |]. destruct w as [s r t]. cbn [session] in Hu.
  run. by rewrite Hu.
Qed.

(** ** Portals other than the admin portal *)

(** X13. On a portal that is not the admin portal, the login page, the
    authorization redirect, the callback and the admin logout all answer 404
    and leave session, store and trace as they were, whatever the session,
    the markers and the outcome of the exchange are; the OIDC client is not
    even called. *)
Theorem admin_routes_closed_elsewhere
    (cfg : config) (now : Z) (oidc : exchange)
    (authorize_redirect : string → M response) (w : world) :
  portal_is_admin cfg = false →
  admin_login cfg now w = (Body "Not available on this portal" 404, w) ∧
  admin_auth cfg authorize_redirect w = (Body "Not available on this portal" 404, w) ∧
  admin_callback cfg oidc w = (Body "Not available on this portal" 404, w) ∧
  admin_logout cfg now w = (Body "Not available on this portal" 404, w).
Proof.
  intros Hp.
  unfold admin_login, admin_auth, admin_callback, admin_logout, not_admin_portal.
  by rewrite Hp.
Qed.

Lemma admin_routes_closed_elsewhere_witness :
  admin_callback internal_cfg (Exchanged alice_token) (start empty_session sample_store)
  = (Body "Not available on this portal" 404, start empty_session sample_store).
Proof.
  exact (proj1 (proj2 (proj2
    (admin_routes_closed_elsewhere internal_cfg 0 (Exchanged alice_token)
       (λ _, ret RenderLogin) (start empty_session sample_store) eq_refl)))).
Defined.

(** ** Start-up *)

(** X14. After [main], the OIDC client is registered exactly on the admin
    portal. Hence the page "OIDC client not configured." is never shown:
    the callback never renders it, and the authorization route either
    answers 404 or hands over to the client with the external address of
    the callback. *)
Theorem main_registers_client
    (args : args_t) (path : list string) (root : string)
    (oidc : exchange) (authorize_redirect : string → M response) (w : world) :
  let cfg := config_of (fst (main args path)) root in
  keycloak_client cfg = portal_is_admin cfg ∧
  fst (admin_callback cfg oidc w) ≠ RenderError "OIDC client not configured." ∧
  admin_auth cfg authorize_redirect w =
    (if portal_is_admin cfg
     then authorize_redirect (root ++ "/admin/callback") w
     else (Body "Not available on this portal" 404, w)).
Proof.
  intros cfg.
  assert (keycloak_client cfg = portal_is_admin cfg) as Hk
    by (subst cfg; destruct args as [[| |] port]; reflexivity).
  split; [exact Hk |]. split.
  - unfold admin_callback, not_admin_portal. rewrite Hk.
    destruct (portal_is_admin cfg); cbn [negb]; [| done].
    destruct oidc as [e | token]; [done |].
    destruct (t_userinfo token) as [ui|] eqn:Hui; [| done].
    destruct (usable (Some ui)) eqn:Huse; [| done].
    pose proof (admin_callback_run
                  {| PORTAL_TYPE := Some admin; keycloak_client := true;
                     url_root := root |} token ui w eq_refl eq_refl Hui Huse) as Hrun.
    unfold admin_callback, not_admin_portal in Hrun. cbn [negb portal_is_admin
      PORTAL_TYPE keycloak_client] in Hrun. rewrite Hui, Huse in Hrun.
    by rewrite Hrun.
  - unfold admin_auth, not_admin_portal. rewrite Hk.
    by destruct (portal_is_admin cfg).
Qed.

(** X15. Whatever portal is chosen, [get_portal_info] returns a dictionary
    with exactly the keys name, icon and description, so the subscripts of
    the start-up banner in [main] never fail; and the folders [main] sets
    lie below the directory that [get_static_directory] names for the admin
    portal, directly below the application otherwise. *)
Theorem portal_info_complete (portal_type : option portal) (args : args_t)
    (path : list string) :
  dom (get_portal_info portal_type) = ({[ "name"; "icon"; "description" ]} : gset string) ∧
  is_Some (snd (main args path)) ∧
  g_PORTAL_INFO (fst (main args path)) = get_portal_info (Some (args_portal args)) ∧
  g_static_folder (fst (main args path)) =
    (path ++ match args_portal args with
             | admin => [get_static_directory (Some admin); "static"]
             | _ => ["static"]
             end)%list.
Proof.
  split.
  - destruct portal_type as [[| |]|]; unfold get_portal_info;
      rewrite !dom_insert_L, dom_singleton_L; set_solver.
  - destruct args as [p port]. destruct p; cbn; repeat split; by eexists.
Qed.

(** ** Requests without a user id, and the keys a request may touch *)

(** X16. A front-channel logout of a session without a user id -- no user
    record, a record whose id is missing, or an empty id -- writes no marker
    and still clears the whole session, other keys included; the answer is
    the usual one for the portal. The same holds for [/admin/logout] on the
    admin portal. *)
Theorem front_channel_logout_without_id
    (cfg : config) (now : Z) (logout_token : option string) (w : world) :
  truthy (session_user_id (session w)) = false →
  logout cfg now GET logout_token w =
    (if portal_is_admin cfg then Redirect "/admin/login"
     else Body "Logged out. Please login again." 200,
     {| session := empty_session; logout_redis := logout_redis w;
        trace := (trace w ++ [SessionClear])%list |}) ∧
  (portal_is_admin cfg = true →
   logout_redis (snd (admin_logout cfg now w)) = logout_redis w ∧
   session (snd (admin_logout cfg now w)) = empty_session).
Proof.
  intros Hid. rewrite logout_get_run, admin_logout_run, Hid.
  split; [done |]. by intros ->.
Qed.

Lemma front_channel_logout_without_id_witness :
  logout admin_cfg 0 GET None (start (session_of nameless) sample_store) =
    (Redirect "/admin/login",
     {| session := empty_session; logout_redis := sample_store;
        trace := [SessionClear] |}).
Proof.
  exact (proj1 (front_channel_logout_without_id admin_cfg 0 None
                  (start (session_of nameless) sample_store) eq_refl)).
Defined.

Lemma admin_callback_store (cfg : config) (oidc : exchange) (w : world) (k : string) :
  k ≠ wildcard_key →
  (∀ token ui, oidc = Exchanged token → t_userinfo token = Some ui →
               k ≠ logout_key (claim ui "sub")) →
  logout_redis (snd (admin_callback cfg oidc w)) !! k = logout_redis w !! k.
Proof.
  intros Hw Hsub.
  destruct (portal_is_admin cfg) eqn:Hp, (keycloak_client cfg) eqn:Hc;
    try (unfold admin_callback, not_admin_portal; by rewrite Hp, ?Hc).
  destruct oidc as [e | token];
    [unfold admin_callback, not_admin_portal; by rewrite Hp, Hc |].
  destruct (t_userinfo token) as [ui|] eqn:Hui;
    [| unfold admin_callback, not_admin_portal; by rewrite Hp, Hc, Hui].
  destruct (usable (Some ui)) eqn:Huse;
    [| unfold admin_callback, not_admin_portal; by rewrite Hp, Hc, Hui, Huse].
  rewrite (admin_callback_run cfg token ui w Hp Hc Hui Huse).
  cbn [snd logout_redis].
  rewrite lookup_delete_ne by done.
  apply lookup_delete_ne. intros H. by eapply Hsub.
Qed.

(** X17. A request only ever touches the markers it is about: whatever the
    route, every key of the store other than the wildcard key, the key of
    the user id in the request's own session and, for a callback, the key
    of the subject that logs in, holds after the request what it held
    before. *)
Theorem requests_touch_own_keys_only
    (cfg : config) (now : Z) (req : request) (w : world) (k : string) :
  k ≠ wildcard_key →
  k ≠ logout_key (session_user_id (session w)) →
  (∀ token ui, req = GetAdminCallback (Exchanged token) →
               t_userinfo token = Some ui → k ≠ logout_key (claim ui "sub")) →
  logout_redis (snd (dispatch cfg now req w)) !! k = logout_redis w !! k.
Proof.
  intros Hw Hown Hsub. destruct req as [| oidc | | method tok |]; cbn [dispatch].
  - rewrite admin_login_run. destruct (portal_is_admin cfg); [| done].
    destruct (s_user (session w)) as [u|]; [| done].
    by destruct (alive (logout_redis w) now (logout_key (u_id u))
                 || alive (logout_redis w) now wildcard_key).
  - apply admin_callback_store; [done |]. intros token ui -> Hui.
    by eapply Hsub.
  - unfold admin_dashboard. rewrite require_auth_run.
    unfold session_user_id in Hown.
    destruct (s_user (session w)) as [u|] eqn:Hu; [| done].
    destruct (alive (logout_redis w) now (logout_key (u_id u))
              || alive (logout_redis w) now wildcard_key).
    + cbn [snd]. destruct (alive (logout_redis w) now wildcard_key && truthy (u_id u));
        cbn [logout_redis]; [by rewrite lookup_insert_ne | done].
    + unfold admin_dashboard_view. destruct (not_admin_portal cfg); [done |].
      destruct w as [s r t]. cbn [session] in Hu. run. by rewrite Hu.
  - destruct method.
    + rewrite logout_get_run. cbn [snd logout_redis].
      destruct (truthy (session_user_id (session w))); [| done].
      by rewrite lookup_insert_ne.
    + rewrite logout_post_run. cbn [snd logout_redis].
      rewrite lookup_insert_ne by done.
      destruct (truthy (session_user_id (session w))); [| done].
      by rewrite lookup_insert_ne.
  - rewrite admin_logout_run. destruct (portal_is_admin cfg); [| done].
    cbn [snd logout_redis].
    destruct (truthy (session_user_id (session w))); [| done].
    by rewrite lookup_insert_ne.
Qed.

Lemma requests_touch_own_keys_only_witness :
  logout_redis (snd (dispatch admin_cfg 0 (Logout POST None)
                       (start (session_of alice) sample_store))) !! "logout:bob"
  = logout_redis (start (session_of alice) sample_store) !! "logout:bob".
Proof.
  exact (requests_touch_own_keys_only admin_cfg 0 (Logout POST None)
           (start (session_of alice) sample_store) "logout:bob"
           ltac:(discriminate) ltac:(discriminate) ltac:(discriminate)).
Defined.

(** X18. The subject ["*"] is not a concrete subject: its key is the
    wildcard key. When a session whose user id is ["*"] logs out through
    the front channel, every session with a user record is stopped by the
    gate for the next 3600 seconds, exactly as after a back-channel logout. *)
Theorem star_subject_logs_out_everyone
    (cfg : config) (t now : Z) (logout_token : option string) (w : world)
    (u : user) (s2 : session_t) (u2 : user) :
  s_user (session w) = Some u → u_id u = PyStr "*" →
  s_user s2 = Some u2 → now < t + 3600 →
  gate_stops now (with_session s2 (snd (logout cfg t GET logout_token w))).
Proof.
  intros Hu Hid Hu2 Hlt.
  assert (session_user_id (session w) = PyStr "*") as Hsid
    by (unfold session_user_id; by rewrite Hu, Hid).
  rewrite logout_get_run, Hsid.
  change (truthy (PyStr "*")) with true. cbn [snd].
  eapply gate_stops_marked; [exact Hu2 |].
  cbn [with_session logout_redis]. rewrite logout_key_star.
  rewrite (alive_insert_eq _ now wildcard_key).
  apply orb_true_iff. right. by apply bool_decide_eq_true.
Qed.

Lemma star_subject_logs_out_everyone_witness :
  gate_stops 100
    (with_session (session_of alice)
       (snd (logout internal_cfg 0 GET None (start (session_of star) ∅)))).
Proof.
  exact (star_subject_logs_out_everyone internal_cfg 0 100 None
           (start (session_of star) ∅) star (session_of alice) alice
           eq_refl eq_refl eq_refl eq_refl).
Defined.
